(** * The login route of Epic Notes (app/routes/_auth+/login.tsx)

    A shallow embedding of the route's [loader] and [action] together with
    the collaborators they import, and the properties of the login flow
    proved over it.

    Handlers are computations in a small state-and-exception monad over a
    [World]: the credential store, the session store, the server clock and
    a trace of the calls made to the stores and to the request body.  A
    handler returns a [Response], throws one (Remix sends a thrown response
    to the client as it is), or fails with an [Error] that is no response
    (Remix answers that with a 500). *)

From stdpp Require Import gmap strings list fin_maps.
From Stdlib Require Import ZArith Lia Ascii.

Open Scope string_scope.
Open Scope Z_scope.

(** ** Data model *)

Record User := {
  user_id : string;
  user_username : string;
  user_passwordHash : string;
}.

(** [session_expiresAt = None] is a browser-session-lifetime session. *)
Record Session := {
  session_id : string;
  session_userId : string;
  session_createdAt : Z;
  session_expiresAt : option Z;
}.

(** A value of the posted form as JavaScript sees it: a string, or an array
    when the form repeats a name.  An absent entry ([undefined]) is a failed
    lookup in the payload. *)
Inductive JsVal :=
  | JString (s : string)
  | JArray (l : list string).

(** The request body as conform reads it: the value of the intent button
    (['submit'] when the form names none) and the other entries, which make
    the payload object.  The names are plain field names: a form with dotted
    or bracketed names, which conform nests, is not among the inputs. *)
Record FormData := {
  form_intent : string;
  form_entries : gmap string JsVal;
}.

(** The value of a cookie header: a payload with its signature, or text
    that is not of that shape. *)
Inductive Cookie :=
  | Garbled (raw : string)
  | Signed (data : gmap string string) (signature : string).

Record Request := {
  req_cookie : option Cookie;
  req_body : FormData;
}.

(** The output of [LoginFormSchema]. *)
Record Data := {
  username : string;
  password : string;
  redirectTo : option string;
  remember : bool;
}.

(** The output of the transformed schema, [{ ...data, user }].  [v_user] is
    what [login] returned ([None] is [null]); [v_password] is [None] once
    the route has deleted the field. *)
Record Value := {
  v_username : string;
  v_password : option string;
  v_redirectTo : option string;
  v_remember : bool;
  v_user : option Session;
}.

(** conform's submission object.  [sub_error] maps a field name to its
    messages, the empty name standing for the form as a whole. *)
Record Submission := {
  sub_intent : string;
  sub_payload : gmap string JsVal;
  sub_error : gmap string (list string);
  sub_value : option Value;
}.

Record SetCookie := {
  sc_cookie : Cookie;
  sc_expires : option Z;
}.

Inductive Body :=
  | NoBody
  | JsonEmpty
  | JsonAction (status : string) (submission : Submission).

Record Response := {
  res_status : Z;
  res_location : option string;
  res_setCookie : option SetCookie;
  res_body : Body;
}.

(** ** The world the handlers run in *)

Inductive Effect :=
  | ReadBody
  | Verify (name : string)
  | CreateSession (id : string).

(** [ticks] are the milliseconds that will pass after each of the coming
    readings of the clock: the k-th reading returns the start time plus the
    first k-1 of them, so every non-decreasing sequence of readings can be
    described.  [trace] lists, oldest first, the calls that read the body or
    reach the stores. *)
Record World := {
  users : list User;
  sessions : gmap string Session;
  now : Z;
  ticks : list N;
  trace : list Effect;
}.

Definition set_sessions (m : gmap string Session) (w : World) : World :=
  {| users := users w; sessions := m; now := now w;
     ticks := ticks w; trace := trace w |}.

Definition emit (e : Effect) (w : World) : World :=
  {| users := users w; sessions := sessions w; now := now w;
     ticks := ticks w; trace := trace w ++ [e] |}.

Definition advance (w : World) : World :=
  match ticks w with
  | [] => w
  | d :: ds =>
      {| users := users w; sessions := sessions w; now := now w + Z.of_N d;
         ticks := ds; trace := trace w |}
  end.

Inductive Outcome (A : Type) :=
  | Returned (a : A)
  | Thrown (r : Response)
  | Errored.
Arguments Returned {A} a.
Arguments Thrown {A} r.
Arguments Errored {A}.

Definition M (A : Type) : Type := World → Outcome A * World.

#[global] Instance M_ret : MRet M := λ A a w, (Returned a, w).

#[global] Instance M_bind : MBind M := λ A B k m w,
  match m w with
  | (Returned a, w') => k a w'
  | (Thrown r, w') => (Thrown r, w')
  | (Errored, w') => (Errored, w')
  end.

Definition throw {A} (r : Response) : M A := λ w, (Thrown r, w).

(** [throw new Error(...)]. *)
Definition throwError {A} : M A := λ w, (Errored, w).

Definition gets {A} (f : World → A) : M A := λ w, (Returned (f w), w).

Definition modify (f : World → World) : M unit := λ w, (Returned tt, f w).

Definition log (e : Effect) : M unit := modify (emit e).

(** [Date.now()]. *)
Definition Date_now : M Z := λ w, (Returned (now w), advance w).

(** ** Remix responses *)

Definition json (body : Body) (status : Z) : Response :=
  {| res_status := status; res_location := None;
     res_setCookie := None; res_body := body |}.

Definition redirect (url : string) (setCookie : option SetCookie) : Response :=
  {| res_status := 302; res_location := Some url;
     res_setCookie := setCookie; res_body := NoBody |}.

(** ** zod results *)

(** A parse either yields the output or at least one issue message. *)
Inductive ZodResult (A : Type) :=
  | ZOk (a : A)
  | ZIssues (msg : string) (more : list string).
Arguments ZOk {A} a.
Arguments ZIssues {A} msg more.

Definition issues {A} (name : string) (r : ZodResult A)
  : gmap string (list string) :=
  match r with
  | ZOk _ => ∅
  | ZIssues msg more => {[ name := msg :: more ]}
  end.

(** [z.string().optional()] under conform's [parse], which hands a field's
    schema [undefined] for an empty string. *)
Definition zStringOptional (v : option JsVal) : ZodResult (option string) :=
  match v with
  | None => ZOk None
  | Some (JString s) => if decide (s = "") then ZOk None else ZOk (Some s)
  | Some (JArray _) => ZIssues "Expected string, received array" []
  end.

(** ** What the route imports and this development leaves open

    Constants and helpers of modules that are not part of the route:
    [~/utils/user-validation.ts], [~/utils/zod-extensions.ts], the two
    constants of [~/utils/auth.server.ts], [safeRedirect] of remix-utils,
    the password hash comparison, the cookie signature, and what conform
    makes of the command of a [list/] intent: the payload as the command
    rewrites it, or [None] where conform cannot parse or apply the command
    and throws. *)
Class Imports := {
  SESSION_EXPIRATION_TIME : Z;
  userIdKey : string;
  usernameSchema : option JsVal → ZodResult string;
  passwordSchema : option JsVal → ZodResult string;
  checkboxSchema : option JsVal → ZodResult bool;
  safeRedirect : option string → string;
  comparePassword : string → string → bool;
  sign : gmap string string → string;
  listIntent : string → gmap string JsVal → option (gmap string JsVal);
}.

(** A sample configuration and sample inputs, used by the examples below.
    The samples carry no list command that conform can apply. *)
Definition sampleString (v : option JsVal) : ZodResult string :=
  match v with
  | None => ZIssues "Required" []
  | Some (JString s) =>
      if decide (s = "") then ZIssues "Required" [] else ZOk s
  | Some (JArray _) => ZIssues "Expected string, received array" []
  end.

Definition sampleCheckbox (v : option JsVal) : ZodResult bool :=
  match v with
  | None => ZOk false
  | Some (JString s) =>
      if decide (s = "on") then ZOk true
      else ZIssues "Invalid literal value, expected on" []
  | Some (JArray _) => ZIssues "Invalid literal value, expected on" []
  end.

Definition sampleImports : Imports := {|
  SESSION_EXPIRATION_TIME := 2592000000;
  userIdKey := "userId";
  usernameSchema := sampleString;
  passwordSchema := sampleString;
  checkboxSchema := sampleCheckbox;
  safeRedirect := λ to, match to with
                        | Some "/notes" => "/notes"
                        | _ => "/"
                        end;
  comparePassword := λ plain hash, bool_decide ("hash:" +:+ plain = hash);
  sign := λ data, "sig" +:+ default "" (data !! "userId");
  listIntent := λ command payload, None;
|}.

Definition alice : User :=
  {| user_id := "u1"; user_username := "alice";
     user_passwordHash := "hash:correct-horse" |}.

Definition sampleWorld (elapsed : list N) : World :=
  {| users := [alice]; sessions := ∅; now := 1000;
     ticks := elapsed; trace := [] |}.

Definition sampleForm (intent pass : string) (rememberMe : bool) : FormData :=
  {| form_intent := intent;
     form_entries :=
       let base : gmap string JsVal :=
         <["username" := JString "alice"]>
           (<["password" := JString pass]>
              (<["redirectTo" := JString "/notes"]> ∅)) in
       if rememberMe then <["remember" := JString "on"]> base else base |}.

Definition sampleRequest (intent pass : string) (rememberMe : bool) : Request :=
  {| req_cookie := None; req_body := sampleForm intent pass rememberMe |}.

Definition sampleData (pass : string) (rememberMe : bool) : Data :=
  {| username := "alice"; password := pass;
     redirectTo := Some "/notes"; remember := rememberMe |}.

(** A world in which session [s1] of alice is live, and a request that
    carries its cookie. *)
Definition sampleSession : Session :=
  {| session_id := "s1"; session_userId := "u1";
     session_createdAt := 0; session_expiresAt := None |}.

Definition sampleLiveWorld : World :=
  {| users := [alice]; sessions := {[ "s1" := sampleSession ]}; now := 1000;
     ticks := [3%N]; trace := [] |}.

Definition sampleReturning (intent pass : string) : Request :=
  {| req_cookie := Some (Signed {[ "userId" := "s1" ]} "sigs1");
     req_body := sampleForm intent pass false |}.

(** The same world once session [s1] has expired, and the same request with
    a signature that does not fit. *)
Definition sampleExpiredWorld : World :=
  {| users := [alice];
     sessions := {[ "s1" := {| session_id := "s1"; session_userId := "u1";
                               session_createdAt := 0;
                               session_expiresAt := Some 500 |} ]};
     now := 1000; ticks := [3%N]; trace := [] |}.

Definition sampleTampered (intent pass : string) : Request :=
  {| req_cookie := Some (Signed {[ "userId" := "s1" ]} "sigs2");
     req_body := sampleForm intent pass false |}.

(** An anonymous request whose cookie session holds a theme, and no session
    id. *)
Definition sampleThemed (intent pass : string) : Request :=
  {| req_cookie := Some (Signed {[ "theme" := "dark" ]} "sig");
     req_body := sampleForm intent pass false |}.

(** ** The page: what [LoginPage] computes

    JavaScript strings are taken as their UTF-8 bytes, which is what
    [encodeURIComponent] escapes. *)

(** conform's submission in the browser, where the schema has no transform:
    the value is the schema's output. *)
Record ClientSubmission := {
  cs_intent : string;
  cs_payload : gmap string JsVal;
  cs_error : gmap string (list string);
  cs_value : option Data;
}.

(** The characters [encodeURIComponent] leaves as they are: letters, digits
    and [- _ . ! ~ * ' ( )].  Every other byte becomes [%] and two upper-case
    hexadecimal digits.  (A string with a lone surrogate, on which the
    function throws, has no UTF-8 bytes and is not among the inputs.) *)
Definition unreserved (c : ascii) : bool :=
  let n := N_of_ascii c in
  ((48 <=? n) && (n <=? 57) || (65 <=? n) && (n <=? 90)
   || (97 <=? n) && (n <=? 122))%N
  || bool_decide (c ∈ ["-"; "_"; "."; "!"; "~"; "*"; "'"; "("; ")"]%char).

Definition hexDigit (n : N) : ascii :=
  if (n <? 10)%N then ascii_of_N (48 + n) else ascii_of_N (55 + n).

Definition percentEncode (c : ascii) : string :=
  let n := N_of_ascii c in
  String "%" (String (hexDigit (n / 16)) (String (hexDigit (n mod 16)) "")).

Fixpoint encodeURIComponent (s : string) : string :=
  match s with
  | EmptyString => ""
  | String c rest =>
      if unreserved c then String c (encodeURIComponent rest)
      else percentEncode c +:+ encodeURIComponent rest
  end.

(** The target of the "Create an account" link, for the [redirectTo] of the
    page's search parameters ([None] is [null]; the empty string is falsy
    too). *)
Definition signupLink (redirectTo : option string) : string :=
  match redirectTo with
  | Some to => if decide (to = "") then "/signup"
               else "/signup?" +:+ encodeURIComponent to
  | None => "/signup"
  end.

(** Reading an escaped text back, to show that escaping loses nothing. *)
Definition hexValue (c : ascii) : N :=
  let n := N_of_ascii c in
  (if n <? 58 then n - 48 else n - 55)%N.

Fixpoint unescape (s : string) : string :=
  match s with
  | EmptyString => ""
  | String c rest =>
      if Ascii.eqb c "%" then
        match rest with
        | String h (String l rest') =>
            String (ascii_of_N (hexValue h * 16 + hexValue l)) (unescape rest')
        | _ => String c (unescape rest)
        end
      else String c (unescape rest)
  end.

(** The characters an escaped text is made of. *)
Definition tokenChar (c : ascii) : bool := unreserved c || Ascii.eqb c "%".

Section Login.
Context `{Imports}.

(** ** ~/utils/session.server.ts *)

(** Modelled from the spec: [getSession] of [~/utils/session.server.ts] is
    not part of the route.  Section 4.3: decoding an absent, malformed or
    wrongly signed header never throws and yields no session data. *)
Definition getSession (header : option Cookie) : gmap string string :=
  match header with
  | Some (Signed data signature) =>
      if decide (sign data = signature) then data else ∅
  | _ => ∅
  end.

(** Modelled from the spec: [commitSession] of [~/utils/session.server.ts]
    is not part of the route.  Section 4.3: the data is signed, and the
    cookie carries an [Expires] attribute exactly when an expiration is
    given, set to exactly that value. *)
Definition commitSession (data : gmap string string) (expires : option Z)
  : SetCookie :=
  {| sc_cookie := Signed data (sign data); sc_expires := expires |}.

(** Modelled from the spec: the [decode] of section 4.3, the session id a
    cookie header carries, read under the key the route writes. *)
Definition decode (header : option Cookie) : option string :=
  getSession header !! userIdKey.

(** ** ~/utils/auth.server.ts *)

(** Modelled from the spec: the Credential Store of section 4.1, which
    [login] of [~/utils/auth.server.ts] consults.  Unknown user and wrong
    password both give [None]. *)
Definition verifyAgainst (stored : list User) (name pass : string)
  : option User :=
  match List.find (λ u, bool_decide (user_username u = name)) stored with
  | Some u => if comparePassword pass (user_passwordHash u)
              then Some u else None
  | None => None
  end.

Definition verify (name pass : string) : M (option User) :=
  _ ← log (Verify name);
  stored ← gets users;
  mret (verifyAgainst stored name pass).

(** Modelled from the spec: [create] of the Session Store, section 4.2.
    The identifier is one the store does not hold yet. *)
Definition create (userId : string) (expiresAt : option Z) : M Session :=
  createdAt ← Date_now;
  held ← gets sessions;
  let id := fresh (dom held) in
  let s := {| session_id := id; session_userId := userId;
              session_createdAt := createdAt;
              session_expiresAt := expiresAt |} in
  _ ← modify (set_sessions (<[id := s]> held));
  _ ← log (CreateSession id);
  mret s.

Definition expired (at_ : Z) (s : Session) : bool :=
  match session_expiresAt s with
  | Some e => bool_decide (e < at_)
  | None => false
  end.

(** Modelled from the spec: [get] of the Session Store, section 4.2, with
    its lazy expiration. *)
Definition get (id : string) : M (option Session) :=
  t ← Date_now;
  held ← gets sessions;
  mret (match held !! id with
        | Some s => if expired t s then None else Some s
        | None => None
        end).

(** Modelled from the spec: [login] of [~/utils/auth.server.ts] is not part
    of the route.  Steps 1 to 3 of section 4.4; it returns the session it
    created, as the route's comments say, or [None] ([null]). *)
Definition login (data : Data) : M (option Session) :=
  user ← verify (username data) (password data);
  match user with
  | None => mret None
  | Some u =>
      t ← Date_now;
      let expiresAt :=
        if remember data then Some (t + SESSION_EXPIRATION_TIME) else None in
      s ← create (user_id u) expiresAt;
      mret (Some s)
  end.

(** Modelled from the spec: [requireAnonymous] of [~/utils/auth.server.ts]
    is not part of the route.  Section 4.5; "already authenticated" is a
    thrown redirect to the home route. *)
Definition requireAnonymous (request : Request) : M unit :=
  match decode (req_cookie request) with
  | None => mret tt
  | Some id =>
      s ← get id;
      match s with
      | Some _ => throw (redirect "/" None)
      | None => mret tt
      end
  end.

(** The session a cookie header resolves to in a world, if it is live. *)
Definition liveSession (w : World) (header : option Cookie) : option Session :=
  match decode header with
  | None => None
  | Some id =>
      match sessions w !! id with
      | Some s => if expired (now w) s then None else Some s
      | None => None
      end
  end.

(** The world the guard leaves: it reads the clock when the cookie carries
    a session id, and changes nothing else. *)
Definition guardWorld (w : World) (header : option Cookie) : World :=
  match decode header with
  | None => w
  | Some _ => advance w
  end.

(** ** The route *)

(** [z.object({ username, password, redirectTo, remember })]: the output,
    or the issues of every field that failed, by field name. *)
Definition LoginFormSchema (payload : gmap string JsVal)
  : Data + gmap string (list string) :=
  match usernameSchema (payload !! "username"),
        passwordSchema (payload !! "password"),
        zStringOptional (payload !! "redirectTo"),
        checkboxSchema (payload !! "remember") with
  | ZOk u, ZOk p, ZOk r, ZOk c =>
      inl {| username := u; password := p; redirectTo := r; remember := c |}
  | u, p, r, c =>
      inr (issues "username" u ∪ issues "password" p
           ∪ issues "redirectTo" r ∪ issues "remember" c)
  end.

Definition withUser (data : Data) (user : option Session) : Value :=
  {| v_username := username data; v_password := Some (password data);
     v_redirectTo := redirectTo data; v_remember := remember data;
     v_user := user |}.

(** The function given to [LoginFormSchema.transform]. *)
Definition transform (intent : string) (data : Data) : M (ZodResult Value) :=
  if decide (intent ≠ "submit") then mret (ZOk (withUser data None))
  else
    user ← login data;
    match user with
    | None => mret (ZIssues "Invalid username or password" [])
    | Some user => mret (ZOk (withUser data (Some user)))
    end.

(** The command of a [list/] intent: conform takes the text before the
    first slash as the kind of the intent. *)
Definition listCommand (intent : string) : option string :=
  match intent with
  | String "l" (String "i" (String "s" (String "t" (String "/" command)))) =>
      Some command
  | _ => None
  end.

(** The payload conform builds: the posted entries, rewritten by the command
    of a [list/] intent; [None] where conform throws on that command. *)
Definition payloadOf (formData : FormData) : option (gmap string JsVal) :=
  match listCommand (form_intent formData) with
  | Some command => listIntent command (form_entries formData)
  | None => Some (form_entries formData)
  end.

(** conform's [parse] with the schema above: it throws on a [list/] intent
    it cannot parse or apply, before the schema is consulted; the transform
    runs only on a payload the object schema accepts; its issue has no
    path, so conform files it under the empty name. *)
Definition parse (formData : FormData) : M Submission :=
  let intent := form_intent formData in
  match payloadOf formData with
  | None => throwError
  | Some payload =>
      match LoginFormSchema payload with
      | inr errors =>
          mret {| sub_intent := intent; sub_payload := payload;
                  sub_error := errors; sub_value := None |}
      | inl data =>
          r ← transform intent data;
          mret {| sub_intent := intent; sub_payload := payload;
                  sub_error := issues "" r;
                  sub_value := match r with ZOk v => Some v | _ => None end |}
      end
  end.

(** [request.formData()]. *)
Definition formData (request : Request) : M FormData :=
  _ ← log ReadBody; mret (req_body request).

(** [delete submission.payload.password]. *)
Definition deletePayloadPassword (s : Submission) : Submission :=
  {| sub_intent := sub_intent s; sub_payload := delete "password" (sub_payload s);
     sub_error := sub_error s; sub_value := sub_value s |}.

(** [delete submission.value?.password]. *)
Definition deleteValuePassword (s : Submission) : Submission :=
  {| sub_intent := sub_intent s; sub_payload := sub_payload s;
     sub_error := sub_error s;
     sub_value :=
       (λ v, {| v_username := v_username v; v_password := None;
                v_redirectTo := v_redirectTo v; v_remember := v_remember v;
                v_user := v_user v |}) <$> sub_value s |}.

Definition loader (request : Request) : M Response :=
  _ ← requireAnonymous request;
  mret (json JsonEmpty 200).

Definition action (request : Request) : M Response :=
  _ ← requireAnonymous request;
  formData ← formData request;
  submission ← parse formData;
  let submission := deletePayloadPassword submission in
  if decide (sub_intent submission ≠ "submit") then
    let submission := deleteValuePassword submission in
    mret (json (JsonAction "idle" submission) 200)
  else
    match sub_value submission with
    | Some {| v_user := Some user; v_remember := remember;
              v_redirectTo := redirectTo |} =>
        let cookieSession := getSession (req_cookie request) in
        let cookieSession := <[userIdKey := session_id user]> cookieSession in
        expires ←
          (if remember
           then t ← Date_now; mret (Some (t + SESSION_EXPIRATION_TIME))
           else mret None);
        mret (redirect (safeRedirect redirectTo)
                (Some (commitSession cookieSession expires)))
    | _ => mret (json (JsonAction "error" submission) 400)
    end.

(** The response a handler sends, returned or thrown; where the handler
    fails with an [Error], the 500 that Remix answers with in its place
    (the error page that is its body is Remix's and is not modelled). *)
Definition sent (o : Outcome Response) : Response :=
  match o with
  | Returned r => r
  | Thrown r => r
  | Errored =>
      {| res_status := 500; res_location := None;
         res_setCookie := None; res_body := NoBody |}
  end.

(** A response echoes no password: a submission in its body has no
    [password] entry in its payload and none in its value. *)
Definition echoesNoPassword (r : Response) : Prop :=
  match res_body r with
  | JsonAction _ sub =>
      sub_payload sub !! "password" = None
      ∧ ∀ v, sub_value sub = Some v → v_password v = None
  | _ => True
  end.

(** [onValidate({ formData })]: [parse(formData, { schema: LoginFormSchema })];
    [None] where conform's [parse] throws. *)
Definition onValidate (formData : FormData) : option ClientSubmission :=
  match payloadOf formData with
  | None => None
  | Some payload =>
      match LoginFormSchema payload with
      | inl data =>
          Some {| cs_intent := form_intent formData; cs_payload := payload;
                  cs_error := ∅; cs_value := Some data |}
      | inr errors =>
          Some {| cs_intent := form_intent formData; cs_payload := payload;
                  cs_error := errors; cs_value := None |}
      end
  end.

(** What [parse] makes of a form when [login] is not consulted: the
    submission of a validation round trip. *)
Definition unverified (intent : string) (payload : gmap string JsVal)
  : Submission :=
  {| sub_intent := intent;
     sub_payload := payload;
     sub_error :=
       match LoginFormSchema payload with
       | inl _ => ∅
       | inr errors => errors
       end;
     sub_value :=
       match LoginFormSchema payload with
       | inl data => Some (withUser data None)
       | inr _ => None
       end |}.

(** The messages a field contributes to conform's error object. *)
Definition messages {A} (r : ZodResult A) : option (list string) :=
  match r with
  | ZOk _ => None
  | ZIssues msg more => Some (msg :: more)
  end.

Definition turnedAway {A} (o : Outcome A) : bool :=
  match o with
  | Thrown _ => true
  | _ => false
  end.

(** The runs of [action], one constructor for each way through it: the
    outcome and the world it leaves. *)
Inductive ActionRun (request : Request) (w : World)
  : Outcome Response → World → Prop :=
  | run_turned_away s :
      liveSession w (req_cookie request) = Some s →
      ActionRun request w
        (Thrown (redirect "/" None)) (guardWorld w (req_cookie request))
  | run_errored :
      liveSession w (req_cookie request) = None →
      form_intent (req_body request) ≠ "submit" →
      payloadOf (req_body request) = None →
      ActionRun request w
        Errored (emit ReadBody (guardWorld w (req_cookie request)))
  | run_validated payload :
      liveSession w (req_cookie request) = None →
      form_intent (req_body request) ≠ "submit" →
      payloadOf (req_body request) = Some payload →
      ActionRun request w
        (Returned
           (json (JsonAction "idle"
                    (deleteValuePassword
                       (deletePayloadPassword
                          (unverified (form_intent (req_body request)) payload))))
              200))
        (emit ReadBody (guardWorld w (req_cookie request)))
  | run_malformed errors :
      liveSession w (req_cookie request) = None →
      form_intent (req_body request) = "submit" →
      LoginFormSchema (form_entries (req_body request)) = inr errors →
      ActionRun request w
        (Returned
           (json (JsonAction "error"
                    (deletePayloadPassword
                       {| sub_intent := "submit";
                          sub_payload := form_entries (req_body request);
                          sub_error := errors;
                          sub_value := None |}))
              400))
        (emit ReadBody (guardWorld w (req_cookie request)))
  | run_rejected data :
      liveSession w (req_cookie request) = None →
      form_intent (req_body request) = "submit" →
      LoginFormSchema (form_entries (req_body request)) = inl data →
      verifyAgainst (users w) (username data) (password data) = None →
      ActionRun request w
        (Returned
           (json (JsonAction "error"
                    (deletePayloadPassword
                       {| sub_intent := "submit";
                          sub_payload := form_entries (req_body request);
                          sub_error := {[ "" := ["Invalid username or password"] ]};
                          sub_value := None |}))
              400))
        (emit (Verify (username data))
           (emit ReadBody (guardWorld w (req_cookie request))))
  | run_accepted data user s wl :
      liveSession w (req_cookie request) = None →
      form_intent (req_body request) = "submit" →
      LoginFormSchema (form_entries (req_body request)) = inl data →
      verifyAgainst (users w) (username data) (password data) = Some user →
      session_userId s = user_id user →
      sessions w !! session_id s = None →
      sessions wl = <[session_id s := s]> (sessions w) →
      users wl = users w →
      trace wl =
        (trace w ++ [ReadBody; Verify (username data);
                     CreateSession (session_id s)])%list →
      now w ≤ now (guardWorld w (req_cookie request)) ≤ now wl →
      session_expiresAt s =
        (if remember data
         then Some (now (guardWorld w (req_cookie request)) + SESSION_EXPIRATION_TIME)
         else None) →
      ActionRun request w
        (Returned
           (redirect (safeRedirect (redirectTo data))
              (Some (commitSession
                       (<[userIdKey := session_id s]> (getSession (req_cookie request)))
                       (if remember data
                        then Some (now wl + SESSION_EXPIRATION_TIME) else None)))))
        (if remember data then advance wl else wl).

(** ** The monad and the world *)

Lemma bind_run {A B} (m : M A) (k : A → M B) (w : World) :
  (m ≫= k) w =
    match m w with
    | (Returned a, w') => k a w'
    | (Thrown r, w') => (Thrown r, w')
    | (Errored, w') => (Errored, w')
    end.
Proof. reflexivity. Qed.

Lemma sessions_advance w : sessions (advance w) = sessions w.
Proof. unfold advance. by destruct (ticks w). Qed.

Lemma users_advance w : users (advance w) = users w.
Proof. unfold advance. by destruct (ticks w). Qed.

Lemma trace_advance w : trace (advance w) = trace w.
Proof. unfold advance. by destruct (ticks w). Qed.

Lemma now_advance w : now w ≤ now (advance w).
Proof. unfold advance. destruct (ticks w); simpl; lia. Qed.

Lemma get_run id w :
  get id w =
    (Returned (match sessions w !! id with
               | Some s => if expired (now w) s then None else Some s
               | None => None
               end), advance w).
Proof.
  unfold get, Date_now, gets. rewrite !bind_run. cbn.
  by rewrite sessions_advance.
Qed.

Lemma requireAnonymous_run request w :
  requireAnonymous request w =
    (match liveSession w (req_cookie request) with
     | Some _ => Thrown (redirect "/" None)
     | None => Returned tt
     end, guardWorld w (req_cookie request)).
Proof.
  unfold requireAnonymous, liveSession, guardWorld.
  destruct (decode (req_cookie request)) as [id|]; [|done].
  rewrite bind_run, get_run.
  destruct (sessions w !! id) as [s|]; [|done].
  by destruct (expired (now w) s).
Qed.

Lemma guardWorld_sessions w header :
  sessions (guardWorld w header) = sessions w.
Proof. unfold guardWorld. destruct (decode header); auto using sessions_advance. Qed.

Lemma guardWorld_users w header : users (guardWorld w header) = users w.
Proof. unfold guardWorld. destruct (decode header); auto using users_advance. Qed.

Lemma guardWorld_trace w header : trace (guardWorld w header) = trace w.
Proof. unfold guardWorld. destruct (decode header); auto using trace_advance. Qed.

Lemma guardWorld_now w header : now w ≤ now (guardWorld w header).
Proof. unfold guardWorld. destruct (decode header); [apply now_advance | lia]. Qed.

(** ** login *)

Lemma verify_run name pass w :
  verify name pass w =
    (Returned (verifyAgainst (users w) name pass), emit (Verify name) w).
Proof. reflexivity. Qed.

Lemma login_rejects data w :
  verifyAgainst (users w) (username data) (password data) = None →
  login data w = (Returned None, emit (Verify (username data)) w).
Proof.
  intros Hv. unfold login. rewrite bind_run, verify_run, Hv. reflexivity.
Qed.

(** What [login] leaves behind when the credentials match user [u]: the
    session [s] it returns and the world [w']. *)
Lemma login_accepts data u w :
  verifyAgainst (users w) (username data) (password data) = Some u →
  ∃ s w',
    login data w = (Returned (Some s), w')
    ∧ session_userId s = user_id u
    ∧ session_expiresAt s =
        (if remember data then Some (now w + SESSION_EXPIRATION_TIME) else None)
    ∧ sessions w !! session_id s = None
    ∧ sessions w' = <[session_id s := s]> (sessions w)
    ∧ users w' = users w
    ∧ trace w' =
        (trace w ++ [Verify (username data); CreateSession (session_id s)])%list
    ∧ now w ≤ now w'.
Proof.
  intros Hv.
  set (w1 := emit (Verify (username data)) w).
  set (s := {| session_id := fresh (dom (sessions w));
               session_userId := user_id u;
               session_createdAt := now (advance w1);
               session_expiresAt :=
                 if remember data
                 then Some (now w + SESSION_EXPIRATION_TIME) else None |}).
  exists s,
    (emit (CreateSession (session_id s))
       (set_sessions (<[session_id s := s]> (sessions w))
          (advance (advance w1)))).
  split.
  { unfold login. rewrite bind_run, verify_run, Hv.
    unfold create, Date_now, gets, modify, log. rewrite !bind_run. cbn.
    rewrite !sessions_advance. reflexivity. }
  repeat split; cbn; try reflexivity.
  - apply not_elem_of_dom, is_fresh.
  - by rewrite !users_advance.
  - rewrite !trace_advance. cbn. by rewrite <- app_assoc.
  - pose proof (now_advance w1). pose proof (now_advance (advance w1)).
    cbn in *. lia.
Qed.

(** ** The paths through [action] *)

Ltac branch :=
  first [ rewrite decide_True by done
        | rewrite decide_False by (let Hne := fresh in intros Hne; by apply Hne) ].

Ltac run := repeat first [ branch | rewrite bind_run | progress cbn ].

Lemma action_already_authenticated request w s :
  liveSession w (req_cookie request) = Some s →
  action request w =
    (Thrown (redirect "/" None), guardWorld w (req_cookie request)).
Proof.
  intros Hlive. unfold action.
  by rewrite bind_run, requireAnonymous_run, Hlive.
Qed.

(** Past the guard the body is read and parsed; [k] is the rest of the
    handler. *)
Lemma past_guard {A} request w (k : FormData → M A) :
  liveSession w (req_cookie request) = None →
  (_ ← requireAnonymous request; fd ← formData request; k fd) w =
    k (req_body request) (emit ReadBody (guardWorld w (req_cookie request))).
Proof.
  intros Hlive. by rewrite bind_run, requireAnonymous_run, Hlive.
Qed.

Lemma payloadOf_submit fd :
  form_intent fd = "submit" → payloadOf fd = Some (form_entries fd).
Proof. unfold payloadOf. by intros ->. Qed.


Lemma action_errors request w :
  liveSession w (req_cookie request) = None →
  payloadOf (req_body request) = None →
  action request w = (Errored, emit ReadBody (guardWorld w (req_cookie request))).
Proof.
  intros Hlive Hpayload. unfold action. rewrite past_guard by done.
  unfold parse. by rewrite Hpayload.
Qed.

Lemma action_validates request w payload :
  liveSession w (req_cookie request) = None →
  form_intent (req_body request) ≠ "submit" →
  payloadOf (req_body request) = Some payload →
  action request w =
    (Returned
       (json
          (JsonAction "idle"
             (deleteValuePassword
                (deletePayloadPassword
                   {| sub_intent := form_intent (req_body request);
                      sub_payload := payload;
                      sub_error :=
                        match LoginFormSchema payload with
                        | inl _ => ∅
                        | inr errors => errors
                        end;
                      sub_value :=
                        match LoginFormSchema payload with
                        | inl data => Some (withUser data None)
                        | inr _ => None
                        end |}))) 200),
     emit ReadBody (guardWorld w (req_cookie request))).
Proof.
  intros Hlive Hintent Hpayload. unfold action. rewrite past_guard by done.
  unfold parse, transform. rewrite Hpayload.
  destruct (LoginFormSchema _) as [data|errors]; by run.
Qed.

Lemma action_malformed request w errors :
  liveSession w (req_cookie request) = None →
  form_intent (req_body request) = "submit" →
  LoginFormSchema (form_entries (req_body request)) = inr errors →
  action request w =
    (Returned
       (json
          (JsonAction "error"
             (deletePayloadPassword
                {| sub_intent := "submit";
                   sub_payload := form_entries (req_body request);
                   sub_error := errors;
                   sub_value := None |})) 400),
     emit ReadBody (guardWorld w (req_cookie request))).
Proof.
  intros Hlive Hintent Hschema. unfold action. rewrite past_guard by done.
  unfold parse. rewrite (payloadOf_submit _ Hintent), Hschema, Hintent. by run.
Qed.

Lemma action_invalid_credentials request w data :
  liveSession w (req_cookie request) = None →
  form_intent (req_body request) = "submit" →
  LoginFormSchema (form_entries (req_body request)) = inl data →
  verifyAgainst (users w) (username data) (password data) = None →
  action request w =
    (Returned
       (json
          (JsonAction "error"
             (deletePayloadPassword
                {| sub_intent := "submit";
                   sub_payload := form_entries (req_body request);
                   sub_error := {[ "" := ["Invalid username or password"] ]};
                   sub_value := None |})) 400),
     emit (Verify (username data))
       (emit ReadBody (guardWorld w (req_cookie request)))).
Proof.
  intros Hlive Hintent Hschema Hverify. unfold action.
  rewrite past_guard by done.
  unfold parse, transform.
  rewrite (payloadOf_submit _ Hintent), Hschema, Hintent. branch.
  rewrite !bind_run, login_rejects
    by (cbn; by rewrite guardWorld_users).
  by run.
Qed.

Lemma action_logs_in request w data s wl :
  liveSession w (req_cookie request) = None →
  form_intent (req_body request) = "submit" →
  LoginFormSchema (form_entries (req_body request)) = inl data →
  login data (emit ReadBody (guardWorld w (req_cookie request)))
    = (Returned (Some s), wl) →
  action request w =
    (Returned
       (redirect (safeRedirect (redirectTo data))
          (Some (commitSession
                   (<[userIdKey := session_id s]> (getSession (req_cookie request)))
                   (if remember data
                    then Some (now wl + SESSION_EXPIRATION_TIME) else None)))),
     if remember data then advance wl else wl).
Proof.
  intros Hlive Hintent Hschema Hlogin. unfold action.
  rewrite past_guard by done.
  unfold parse, transform.
  rewrite (payloadOf_submit _ Hintent), Hschema, Hintent. branch.
  rewrite !bind_run, Hlogin. run.
  by destruct (remember data).
Qed.

(** A successful login, start to end: the session [s] that [login]
    created, the world [wl] it left, and what [action] returns. *)
Lemma action_succeeds request w data user :
  liveSession w (req_cookie request) = None →
  form_intent (req_body request) = "submit" →
  LoginFormSchema (form_entries (req_body request)) = inl data →
  verifyAgainst (users w) (username data) (password data) = Some user →
  ∃ s wl,
    action request w =
      (Returned
         (redirect (safeRedirect (redirectTo data))
            (Some (commitSession
                     (<[userIdKey := session_id s]> (getSession (req_cookie request)))
                     (if remember data
                      then Some (now wl + SESSION_EXPIRATION_TIME) else None)))),
       if remember data then advance wl else wl)
    ∧ session_userId s = user_id user
    ∧ sessions w !! session_id s = None
    ∧ sessions wl = <[session_id s := s]> (sessions w)
    ∧ users wl = users w
    ∧ trace wl =
        (trace w ++ [ReadBody; Verify (username data); CreateSession (session_id s)])%list
    ∧ now w ≤ now (guardWorld w (req_cookie request)) ≤ now wl
    ∧ session_expiresAt s =
        (if remember data
         then Some (now (guardWorld w (req_cookie request)) + SESSION_EXPIRATION_TIME)
         else None).
Proof.
  intros Hlive Hintent Hschema Hverify.
  set (w2 := emit ReadBody (guardWorld w (req_cookie request))).
  destruct (login_accepts data user w2)
    as (s & wl & Hlogin & Huser & Hexp & Hfresh & Hsessions & Husers & Htrace & Hnow).
  { cbn. by rewrite guardWorld_users. }
  exists s, wl. cbn in *.
  rewrite guardWorld_sessions in Hfresh, Hsessions.
  rewrite guardWorld_users in Husers.
  rewrite guardWorld_trace, <- app_assoc in Htrace.
  pose proof (guardWorld_now w (req_cookie request)).
  repeat split; try done.
  by apply action_logs_in.
Qed.

(** The two expirations of a login with [remember] set: the session's comes
    from the reading [t0] of the clock that [login] takes, the cookie's from
    the reading [t1] that [action] takes when it commits. *)
Lemma remembered_login_expirations request w data user :
  liveSession w (req_cookie request) = None →
  form_intent (req_body request) = "submit" →
  LoginFormSchema (form_entries (req_body request)) = inl data →
  verifyAgainst (users w) (username data) (password data) = Some user →
  remember data = true →
  ∃ s sc w' t0 t1,
    action request w =
      (Returned (redirect (safeRedirect (redirectTo data)) (Some sc)), w')
    ∧ sessions w' !! session_id s = Some s
    ∧ session_expiresAt s = Some (t0 + SESSION_EXPIRATION_TIME)
    ∧ sc_expires sc = Some (t1 + SESSION_EXPIRATION_TIME)
    ∧ now w ≤ t0 ≤ t1
    ∧ t1 ≤ now w'.
Proof.
  intros Hlive Hintent Hschema Hverify Hremember.
  destruct (action_succeeds request w data user)
    as (s & wl & Haction & _ & _ & Hsessions & _ & _ & Hnow & Hexp); try done.
  rewrite Hremember in Haction, Hexp.
  eexists s, _, _, _, (now wl). split; [exact Haction|].
  split; [rewrite sessions_advance, Hsessions; apply lookup_insert_eq|].
  split; [exact Hexp|]. split; [done|].
  split; [done | apply now_advance].
Qed.

Lemma decode_commitSession data expires :
  decode (Some (sc_cookie (commitSession data expires))) = data !! userIdKey.
Proof. unfold decode, commitSession, getSession. cbn. by rewrite decide_True. Qed.

Lemma liveSession_None w header :
  liveSession w header = None ↔
    decode header = None
    ∨ ∃ id, decode header = Some id
            ∧ (sessions w !! id = None
               ∨ ∃ s, sessions w !! id = Some s ∧ expired (now w) s = true).
Proof.
  unfold liveSession. destruct (decode header) as [id|]; [|by intuition].
  destruct (sessions w !! id) as [s|] eqn:Hs.
  - destruct (expired (now w) s) eqn:He.
    + split; [|done]. intros _. right. exists id. eauto.
    + split; [done|]. intros [|(id' & [= <-] & [|(s' & ? & ?)])]; congruence.
  - split; [|done]. intros _. right. exists id. eauto.
Qed.

(** ** The claims *)

(** C1. For every username/password pair that the form schema accepts and
    that matches a stored user, a login submitted with intent ['submit']
    by an anonymous requester succeeds: [action] returns the redirect, and
    the set-cookie it commits decodes to a session id that the Session
    Store maps to a Session whose [userId] is that user's id. *)
Theorem C1_cookie_names_session_of_user request w data user :
  liveSession w (req_cookie request) = None →
  form_intent (req_body request) = "submit" →
  LoginFormSchema (form_entries (req_body request)) = inl data →
  verifyAgainst (users w) (username data) (password data) = Some user →
  ∃ s sc w',
    action request w =
      (Returned (redirect (safeRedirect (redirectTo data)) (Some sc)), w')
    ∧ decode (Some (sc_cookie sc)) = Some (session_id s)
    ∧ sessions w' !! session_id s = Some s
    ∧ session_userId s = user_id user.
Proof.
  intros Hlive Hintent Hschema Hverify.
  destruct (action_succeeds request w data user)
    as (s & wl & Haction & Huser & _ & Hsessions & _); try done.
  eexists s, _, _. split; [exact Haction|].
  split; [by rewrite decode_commitSession, lookup_insert_eq|].
  split; [|done].
  destruct (remember data); rewrite ?sessions_advance, Hsessions;
    apply lookup_insert_eq.
Qed.

(** C2. For every credential submission on which verification fails, the
    user being unknown or the password wrong, [action] returns, as data
    and with HTTP status 400, a submission whose only error is the message
    ['Invalid username or password'] filed under the form (the empty
    name); the response is the same whichever check failed. *)
Theorem C2_invalid_credentials_one_message request w data :
  liveSession w (req_cookie request) = None →
  form_intent (req_body request) = "submit" →
  LoginFormSchema (form_entries (req_body request)) = inl data →
  verifyAgainst (users w) (username data) (password data) = None →
  ∃ w',
    action request w =
      (Returned
         (json
            (JsonAction "error"
               {| sub_intent := "submit";
                  sub_payload := delete "password" (form_entries (req_body request));
                  sub_error := {[ "" := ["Invalid username or password"] ]};
                  sub_value := None |}) 400), w').
Proof.
  intros Hlive Hintent Hschema Hverify. eexists.
  by rewrite (action_invalid_credentials request w data).
Qed.

(** C3. For every valid credential pair, a login submitted with
    [remember] set commits a set-cookie whose [Expires] is
    [t + SESSION_EXPIRATION_TIME] for a clock reading [t] taken while the
    request is handled, and one submitted without [remember] commits a
    set-cookie with no [Expires]. *)
Theorem C3_remember_sets_cookie_expires request w data user :
  liveSession w (req_cookie request) = None →
  form_intent (req_body request) = "submit" →
  LoginFormSchema (form_entries (req_body request)) = inl data →
  verifyAgainst (users w) (username data) (password data) = Some user →
  ∃ sc w',
    action request w =
      (Returned (redirect (safeRedirect (redirectTo data)) (Some sc)), w')
    ∧ if remember data
      then ∃ t, now w ≤ t ≤ now w'
                ∧ sc_expires sc = Some (t + SESSION_EXPIRATION_TIME)
      else sc_expires sc = None.
Proof.
  intros Hlive Hintent Hschema Hverify.
  destruct (action_succeeds request w data user)
    as (s & wl & Haction & _ & _ & _ & _ & _ & Hnow & _); try done.
  eexists _, _. split; [exact Haction|].
  destruct (remember data); [|done].
  exists (now wl). pose proof (now_advance wl). cbn. split; [lia | done].
Qed.

(** C5. For every credential pair whose password does not match or whose
    username does not exist, [action] returns the invalid-credentials
    outcome (status 400, the one message) and creates no Session record:
    the Session Store holds after the attempt what it held before, and the
    trace shows the body read and the verification and no creation. *)
Theorem C5_failed_login_creates_no_session request w data :
  liveSession w (req_cookie request) = None →
  form_intent (req_body request) = "submit" →
  LoginFormSchema (form_entries (req_body request)) = inl data →
  verifyAgainst (users w) (username data) (password data) = None →
  ∃ sub w',
    action request w = (Returned (json (JsonAction "error" sub) 400), w')
    ∧ sub_error sub = {[ "" := ["Invalid username or password"] ]}
    ∧ sessions w' = sessions w
    ∧ trace w' = (trace w ++ [ReadBody; Verify (username data)])%list.
Proof.
  intros Hlive Hintent Hschema Hverify. eexists _, _.
  split; [by apply action_invalid_credentials|]. cbn.
  by rewrite guardWorld_sessions, guardWorld_trace, <- app_assoc.
Qed.

(** C6. For every request to the login page: when the request's cookie
    decodes to a session that exists and has not expired, the guard
    signals "already authenticated" and [loader] answers with a redirect
    (a thrown 302 with a target and no body); when decoding fails or the
    session is absent or expired ([liveSession_None]), the guard lets the
    request through and [loader] serves the page.  The Session Store is
    left as it was either way. *)
Theorem C6_loader_redirects_live_sessions_only request w :
  ∃ w',
    loader request w =
      (match liveSession w (req_cookie request) with
       | Some _ =>
           Thrown {| res_status := 302; res_location := Some "/";
                     res_setCookie := None; res_body := NoBody |}
       | None =>
           Returned {| res_status := 200; res_location := None;
                       res_setCookie := None; res_body := JsonEmpty |}
       end, w')
    ∧ sessions w' = sessions w.
Proof.
  exists (guardWorld w (req_cookie request)).
  split; [|apply guardWorld_sessions].
  unfold loader. rewrite bind_run, requireAnonymous_run.
  by destruct (liveSession w (req_cookie request)).
Qed.

(** C7. For every login submission, whatever its intent and outcome, the
    response [action] sends echoes no password: a submission in its body
    has no [password] entry in its payload and none in its value (a
    redirect has no body at all); and the credential store is left as it
    was, so the plaintext is not persisted either. *)
Theorem C7_no_response_echoes_password request w :
  echoesNoPassword (sent (action request w).1)
  ∧ users (action request w).2 = users w.
Proof.
  destruct (liveSession w (req_cookie request)) as [s|] eqn:Hlive.
  { rewrite (action_already_authenticated request w s) by done.
    split; [done | apply guardWorld_users]. }
  destruct (decide (form_intent (req_body request) = "submit")) as [Hintent|Hintent].
  - destruct (LoginFormSchema (form_entries (req_body request)))
      as [data|errors] eqn:Hschema.
    + destruct (verifyAgainst (users w) (username data) (password data))
        as [user|] eqn:Hverify.
      * destruct (action_succeeds request w data user)
          as (s & wl & -> & _ & _ & _ & Husers & _); try done.
        split; [done|]. cbn.
        by destruct (remember data); rewrite ?users_advance.
      * rewrite (action_invalid_credentials request w data) by done.
        split; [|apply guardWorld_users].
        split; [apply lookup_delete_eq | done].
    + rewrite (action_malformed request w errors) by done.
      split; [|apply guardWorld_users].
      split; [apply lookup_delete_eq | done].
  - destruct (payloadOf (req_body request)) as [payload|] eqn:Hpayload.
    + rewrite (action_validates request w payload) by done.
      split; [|apply guardWorld_users].
      split; [apply lookup_delete_eq|].
      cbn. intros v Hv.
      destruct (LoginFormSchema _); by simplify_eq/=.
    + rewrite action_errors by done.
      split; [done | apply guardWorld_users].
Qed.

(** C8. For every successful login, the response of [action] is an HTTP
    redirect (status 302, no body) whose target is [safeRedirect] of the
    submitted [redirectTo], carrying as set-cookie what [commitSession]
    made of the cookie session in which the id of the created session was
    set. *)
Theorem C8_success_is_redirect_with_cookie request w data user :
  liveSession w (req_cookie request) = None →
  form_intent (req_body request) = "submit" →
  LoginFormSchema (form_entries (req_body request)) = inl data →
  verifyAgainst (users w) (username data) (password data) = Some user →
  ∃ r s expires w',
    action request w = (Returned r, w')
    ∧ 300 ≤ res_status r < 400
    ∧ res_location r = Some (safeRedirect (redirectTo data))
    ∧ res_body r = NoBody
    ∧ res_setCookie r =
        Some (commitSession
                (<[userIdKey := session_id s]> (getSession (req_cookie request)))
                expires)
    ∧ sessions w !! session_id s = None
    ∧ sessions w' !! session_id s = Some s.
Proof.
  intros Hlive Hintent Hschema Hverify.
  destruct (action_succeeds request w data user)
    as (s & wl & Haction & _ & Hfresh & Hsessions & _); try done.
  eexists _, s, _, _. split; [exact Haction|]. cbn.
  repeat split; try done.
  destruct (remember data); rewrite ?sessions_advance, Hsessions;
    apply lookup_insert_eq.
Qed.

(** C9. For every POST to the login action whose cookie resolves to a live
    session, the guard runs first and its redirect is the outcome: the
    form body is not read and credential verification is not invoked (the
    trace is as it was), and the Session Store is untouched. *)
Theorem C9_guard_precedes_body_and_login request w s :
  liveSession w (req_cookie request) = Some s →
  ∃ w',
    action request w = (Thrown (redirect "/" None), w')
    ∧ trace w' = trace w
    ∧ sessions w' = sessions w
    ∧ users w' = users w.
Proof.
  intros Hlive. exists (guardWorld w (req_cookie request)).
  split; [by apply (action_already_authenticated request w s)|].
  auto using guardWorld_trace, guardWorld_sessions, guardWorld_users.
Qed.


(** ** Further properties of the route *)

Lemma action_run request w :
  ActionRun request w (action request w).1 (action request w).2.
Proof.
  destruct (liveSession w (req_cookie request)) as [s|] eqn:Hlive.
  { rewrite (action_already_authenticated request w s) by done.
    by eapply run_turned_away. }
  destruct (decide (form_intent (req_body request) = "submit")) as [Hintent|Hintent].
  - destruct (LoginFormSchema (form_entries (req_body request)))
      as [data|errors] eqn:Hschema.
    + destruct (verifyAgainst (users w) (username data) (password data))
        as [user|] eqn:Hverify.
      * destruct (action_succeeds request w data user)
          as (s & wl & -> & ? & ? & ? & ? & ? & ? & ?); try done.
        by eapply run_accepted.
      * rewrite (action_invalid_credentials request w data) by done.
        by apply run_rejected.
    + rewrite (action_malformed request w errors) by done.
      by apply run_malformed.
  - destruct (payloadOf (req_body request)) as [payload|] eqn:Hpayload.
    + rewrite (action_validates request w payload) by done.
      by apply run_validated.
    + rewrite action_errors by done. by apply run_errored.
Qed.

Lemma issues_lookup {A} (name key : string) (r : ZodResult A) :
  issues name r !! key = if decide (key = name) then messages r else None.
Proof.
  destruct r; cbn.
  - rewrite lookup_empty. by case_decide.
  - case_decide; subst; [apply lookup_singleton_eq | by apply lookup_singleton_ne].
Qed.

Lemma schema_accepts payload data :
  LoginFormSchema payload = inl data →
  usernameSchema (payload !! "username") = ZOk (username data)
  ∧ passwordSchema (payload !! "password") = ZOk (password data)
  ∧ zStringOptional (payload !! "redirectTo") = ZOk (redirectTo data)
  ∧ checkboxSchema (payload !! "remember") = ZOk (remember data).
Proof.
  unfold LoginFormSchema.
  destruct (usernameSchema _), (passwordSchema _), (zStringOptional _),
           (checkboxSchema _); intros [= <-]; done.
Qed.

Lemma schema_rejects payload errors :
  LoginFormSchema payload = inr errors →
  (∀ key,
     errors !! key =
       if decide (key = "username")
       then messages (usernameSchema (payload !! "username"))
       else if decide (key = "password")
       then messages (passwordSchema (payload !! "password"))
       else if decide (key = "redirectTo")
       then messages (zStringOptional (payload !! "redirectTo"))
       else if decide (key = "remember")
       then messages (checkboxSchema (payload !! "remember"))
       else None)
  ∧ ∃ key, is_Some (errors !! key).
Proof.
  unfold LoginFormSchema.
  destruct (usernameSchema _) as [u|um ums],
           (passwordSchema _) as [p|pm pms],
           (zStringOptional _) as [r|rm rms],
           (checkboxSchema _) as [c|cm cms];
    intros Heq; try discriminate Heq; apply (inj inr) in Heq as <-;
    (split;
     [ intros key; rewrite !lookup_union, !issues_lookup;
       by repeat case_decide; subst
     | first
         [ exists "username"; rewrite !lookup_union, !issues_lookup;
           by repeat case_decide
         | exists "password"; rewrite !lookup_union, !issues_lookup;
           by repeat case_decide
         | exists "redirectTo"; rewrite !lookup_union, !issues_lookup;
           by repeat case_decide
         | exists "remember"; rewrite !lookup_union, !issues_lookup;
           by repeat case_decide ] ]).
Qed.

Lemma schema_errors_field_level payload errors :
  LoginFormSchema payload = inr errors → errors ≠ ∅ ∧ errors !! "" = None.
Proof.
  intros Hschema.
  destruct (schema_rejects _ _ Hschema) as [Hlookup [key Hkey]]. split.
  - intros ->. rewrite lookup_empty in Hkey. by destruct Hkey.
  - rewrite Hlookup. by repeat case_decide.
Qed.

Ltac runs request w :=
  let Hrun := fresh "Hrun" in
  pose proof (action_run request w) as Hrun;
  destruct (action request w) as [? ?]; cbn [fst snd] in Hrun |- *;
  destruct Hrun
    as [ s Hlive
       | Hlive Hintent Hpayload
       | payload Hlive Hintent Hpayload
       | errors Hlive Hintent Hschema
       | data Hlive Hintent Hschema Hverify
       | data user s wl Hlive Hintent Hschema Hverify
           Huser Hfresh Hsessions Husers Htrace Hnow Hexpires ].

Lemma getSession_commitSession data expires :
  getSession (Some (sc_cookie (commitSession data expires))) = data.
Proof. unfold commitSession, getSession. cbn. by rewrite decide_True. Qed.

(** X2. When an anonymous requester submits (intent ['submit']) a form that
    [LoginFormSchema] rejects, [action] answers 400 with the schema's field
    errors, which are never empty and never include the form-level
    message, and with no value; the credentials are not verified (the trace
    gains the body read only) and the stores are left as they were. *)
Theorem malformed_submission_is_not_verified request w errors :
  liveSession w (req_cookie request) = None →
  form_intent (req_body request) = "submit" →
  LoginFormSchema (form_entries (req_body request)) = inr errors →
  ∃ sub w',
    action request w = (Returned (json (JsonAction "error" sub) 400), w')
    ∧ sub_error sub = errors
    ∧ errors !! "" = None
    ∧ errors ≠ ∅
    ∧ sub_value sub = None
    ∧ sub_payload sub = delete "password" (form_entries (req_body request))
    ∧ trace w' = (trace w ++ [ReadBody])%list
    ∧ sessions w' = sessions w
    ∧ users w' = users w.
Proof.
  intros Hlive Hintent Hschema.
  destruct (schema_errors_field_level _ _ Hschema) as [Hnonempty Hform].
  eexists _, _. split; [by apply action_malformed|]. cbn.
  rewrite guardWorld_trace, guardWorld_sessions, guardWorld_users.
  by split_and!.
Qed.

(** X3. [loader] and [action] turn away the same requests: one throws
    exactly when the other does, and then both send the same redirect and
    leave the same world; otherwise [loader] serves the page with status
    200. *)
Theorem loader_and_action_turn_away_alike request w :
  turnedAway (loader request w).1 = turnedAway (action request w).1
  ∧ if turnedAway (action request w).1
    then action request w = loader request w
         ∧ (loader request w).1 = Thrown (redirect "/" None)
    else (loader request w).1 = Returned (json JsonEmpty 200).
Proof.
  unfold loader at 1 2 3 4. rewrite bind_run, requireAnonymous_run.
  runs request w; by rewrite Hlive.
Qed.

(** X4. The response of [action] carries a set-cookie exactly when the
    request created a session: without a set-cookie the Session Store is as
    it was; with one, the response is the 302, the store gained one session
    under an id it did not hold, and the cookie decodes to that id. *)
Theorem set_cookie_iff_session_created request w :
  match res_setCookie (sent (action request w).1) with
  | None => sessions (action request w).2 = sessions w
  | Some sc =>
      ∃ s,
        decode (Some (sc_cookie sc)) = Some (session_id s)
        ∧ sessions w !! session_id s = None
        ∧ sessions (action request w).2 = <[session_id s := s]> (sessions w)
        ∧ res_status (sent (action request w).1) = 302
  end.
Proof.
  runs request w; cbn [sent res_setCookie res_status redirect json sessions emit];
    rewrite ?guardWorld_sessions; try done.
  exists s. rewrite decode_commitSession, lookup_insert_eq.
  split_and!; try done.
  by destruct (remember data); rewrite ?sessions_advance.
Qed.


Lemma expired_later t t' s : t ≤ t' → expired t s = true → expired t' s = true.
Proof.
  unfold expired. destruct (session_expiresAt s) as [e|]; [|done].
  rewrite !bool_decide_eq_true. lia.
Qed.

Lemma liveSession_stays_None w w' header :
  sessions w' = sessions w → now w ≤ now w' →
  liveSession w header = None → liveSession w' header = None.
Proof.
  unfold liveSession. intros -> Hnow.
  destruct (decode header) as [id|]; [|done].
  destruct (sessions w !! id) as [s|]; [|done].
  destruct (expired (now w) s) eqn:Hexpired; [|done].
  by rewrite (expired_later _ _ _ Hnow Hexpired).
Qed.

Lemma loader_run request w :
  loader request w =
    (match liveSession w (req_cookie request) with
     | Some _ => Thrown (redirect "/" None)
     | None => Returned (json JsonEmpty 200)
     end, guardWorld w (req_cookie request)).
Proof.
  unfold loader. rewrite bind_run, requireAnonymous_run.
  by destruct (liveSession w (req_cookie request)).
Qed.

(** X6. Neither handler removes or alters a session the store holds: what
    the Session Store maps an id to before a request, it maps it to after
    [action] and after [loader], whatever the request. *)
Theorem handlers_keep_existing_sessions request w id held :
  sessions w !! id = Some held →
  sessions (action request w).2 !! id = Some held
  ∧ sessions (loader request w).2 !! id = Some held.
Proof.
  intros Hheld. split.
  - runs request w; cbn [sessions emit]; rewrite ?guardWorld_sessions; try done.
    assert (sessions wl !! id = Some held) as Hkept.
    { rewrite Hsessions, lookup_insert_ne; [done | congruence]. }
    by destruct (remember data); rewrite ?sessions_advance.
  - rewrite loader_run. cbn [snd]. by rewrite guardWorld_sessions.
Qed.

(** X7. On a successful login the committed cookie keeps what the cookie
    session of the request held: [action] starts from [getSession] of the
    request's cookie and sets one key, so under every other key the
    committed cookie reads as the request's did (nothing, when the request
    had no cookie or one that does not verify). *)
Theorem committed_cookie_keeps_other_entries request w data user :
  liveSession w (req_cookie request) = None →
  form_intent (req_body request) = "submit" →
  LoginFormSchema (form_entries (req_body request)) = inl data →
  verifyAgainst (users w) (username data) (password data) = Some user →
  ∃ sc w',
    action request w =
      (Returned (redirect (safeRedirect (redirectTo data)) (Some sc)), w')
    ∧ ∀ key, key ≠ userIdKey →
        getSession (Some (sc_cookie sc)) !! key
        = getSession (req_cookie request) !! key.
Proof.
  intros Hlive Hintent Hschema Hverify.
  destruct (action_succeeds request w data user)
    as (s & wl & Haction & _); try done.
  eexists _, _. split; [exact Haction|].
  intros key Hkey. by rewrite getSession_commitSession, lookup_insert_ne.
Qed.

(** X8. A login takes effect: when a login succeeds and, if [remember] is
    set, the request was handled within [SESSION_EXPIRATION_TIME], a request
    that presents the committed cookie in the world the login left is
    turned away by [loader] and by [action] alike, whatever its body. *)
Theorem login_takes_effect request w data user :
  liveSession w (req_cookie request) = None →
  form_intent (req_body request) = "submit" →
  LoginFormSchema (form_entries (req_body request)) = inl data →
  verifyAgainst (users w) (username data) (password data) = Some user →
  (remember data = true →
   now (action request w).2 ≤ now w + SESSION_EXPIRATION_TIME) →
  ∃ sc,
    res_setCookie (sent (action request w).1) = Some sc
    ∧ ∀ body,
        (loader {| req_cookie := Some (sc_cookie sc); req_body := body |}
           (action request w).2).1 = Thrown (redirect "/" None)
        ∧ (action {| req_cookie := Some (sc_cookie sc); req_body := body |}
             (action request w).2).1 = Thrown (redirect "/" None).
Proof.
  intros Hlive Hintent Hschema Hverify.
  destruct (action_succeeds request w data user)
    as (s & wl & -> & _ & _ & Hsessions & _ & _ & Hnow & Hexpires); try done.
  cbn [fst snd sent res_setCookie redirect]. intros Hintime.
  eexists. split; [done|]. intros body.
  match goal with
  | |- context [loader ?r _] => set (next := r)
  end.
  assert (liveSession (if remember data then advance wl else wl)
            (req_cookie next) = Some s) as Hnext.
  { unfold liveSession, next. cbn [req_cookie].
    rewrite decode_commitSession, lookup_insert_eq.
    assert (sessions (if remember data then advance wl else wl) !! session_id s
            = Some s) as ->.
    { destruct (remember data); rewrite ?sessions_advance, Hsessions;
        apply lookup_insert_eq. }
    unfold expired. rewrite Hexpires.
    destruct (remember data); [|done].
    rewrite bool_decide_eq_false_2; [done|]. specialize (Hintime eq_refl). lia. }
  split.
  - by rewrite loader_run, Hnext.
  - by rewrite (action_already_authenticated next _ s).
Qed.


(** X10. What one run of [action] does to the stores and the body, in
    order: nothing when the requester is turned away; the body read alone
    for a validation round trip and for a run that fails in [parse]; for a 400 the body read, followed by at
    most one verification; for the 302 the body read, one verification and
    then the creation of the one session the cookie names. *)
Theorem action_trace_shapes request w :
  ∃ events,
    trace (action request w).2 = (trace w ++ events)%list
    ∧ match (action request w).1 with
      | Thrown _ => events = []
      | Errored => events = [ReadBody]
      | Returned r =>
          match res_setCookie r with
          | Some sc =>
              ∃ name id, events = [ReadBody; Verify name; CreateSession id]
                         ∧ decode (Some (sc_cookie sc)) = Some id
          | None =>
              if decide (res_status r = 200) then events = [ReadBody]
              else events = [ReadBody] ∨ ∃ name, events = [ReadBody; Verify name]
          end
      end.
Proof.
  runs request w; cbn [trace emit res_setCookie res_status redirect json];
    rewrite ?guardWorld_trace.
  - exists []. by rewrite app_nil_r.
  - by exists [ReadBody].
  - by exists [ReadBody].
  - exists [ReadBody]. split; [done|]. case_decide; [done | by left].
  - exists [ReadBody; Verify (username data)].
    split; [by rewrite <- app_assoc|]. case_decide; [done | right; eauto].
  - exists [ReadBody; Verify (username data); CreateSession (session_id s)].
    split; [by destruct (remember data); rewrite ?trace_advance|].
    eexists _, _. split; [done|].
    by rewrite decode_commitSession, lookup_insert_eq.
Qed.

(** X11. The server reports what the browser's validation reports: when
    [action] echoes a submission, [onValidate] accepts the same form, and
    the submission has the intent and, the password apart, the payload that
    [onValidate] computes for it; its errors are those of [onValidate], or,
    for a ['submit'] that [onValidate] passes, the one form-level message; a
    value it carries agrees with the value of [onValidate] on the fields it
    keeps. *)
Theorem server_errors_agree_with_onValidate request w :
  match res_body (sent (action request w).1) with
  | JsonAction _ sub =>
      ∃ client,
        onValidate (req_body request) = Some client
        ∧ sub_intent sub = cs_intent client
        ∧ sub_payload sub = delete "password" (cs_payload client)
        ∧ (sub_error sub = cs_error client
           ∨ (cs_error client = ∅
              ∧ form_intent (req_body request) = "submit"
              ∧ sub_error sub = {[ "" := ["Invalid username or password"] ]}))
        ∧ ∀ v, sub_value sub = Some v →
               ∃ data, cs_value client = Some data
                       ∧ v_username v = username data
                       ∧ v_redirectTo v = redirectTo data
                       ∧ v_remember v = remember data
  | _ => True
  end.
Proof.
  unfold onValidate.
  runs request w; cbn [sent res_body redirect json]; try done.
  - rewrite Hpayload. unfold unverified. cbn.
    destruct (LoginFormSchema _) as [data|errors]; cbn;
      (eexists; split; [done|]; cbn;
       split_and!; [done | done | by left | intros v [= <-]; eauto || done]).
  - rewrite (payloadOf_submit _ Hintent), Hschema. cbn.
    eexists; split; [done|]. cbn. split_and!; [done | done | by left | done].
  - rewrite (payloadOf_submit _ Hintent), Hschema. cbn.
    eexists; split; [done|]. cbn. split_and!; [done | done | by right | done].
Qed.

(** X14. [action] redirects to sanitised targets only: a location it sends
    is the home route of the guard's redirect, or [safeRedirect] of the
    [redirectTo] the form carried (of nothing, when it carried none), and
    then comes with the set-cookie of a successful login. *)
Theorem action_redirects_to_safe_targets_only request w url :
  res_location (sent (action request w).1) = Some url →
  (url = "/" ∧ turnedAway (action request w).1 = true)
  ∨ ∃ to,
      zStringOptional (form_entries (req_body request) !! "redirectTo") = ZOk to
      ∧ url = safeRedirect to
      ∧ is_Some (res_setCookie (sent (action request w).1)).
Proof.
  runs request w; cbn [sent res_location res_setCookie redirect json turnedAway];
    intros [= <-]; [by left|].
  right. exists (redirectTo data).
  destruct (schema_accepts _ _ Hschema) as (_ & _ & Hto & _).
  by split_and!.
Qed.

(** X15. A rejected attempt can be repeated: when an anonymous requester's
    submission got no set-cookie, the same request made in the world that
    attempt left gets the same response; [action] keeps no count of failed
    attempts. *)
Theorem rejected_attempt_can_be_repeated request w :
  liveSession w (req_cookie request) = None →
  res_setCookie (sent (action request w).1) = None →
  (action request (action request w).2).1 = (action request w).1.
Proof.
  intros Hanonymous.
  pose proof (guardWorld_now w (req_cookie request)) as Hlater.
  runs request w; try congruence;
    cbn [sent res_setCookie redirect json]; try done; intros _.
  - rewrite action_errors; [done | | done].
    apply (liveSession_stays_None w); cbn; by rewrite ?guardWorld_sessions.
  - rewrite (action_validates _ _ payload); [done | | done | done].
    apply (liveSession_stays_None w); cbn; by rewrite ?guardWorld_sessions.
  - rewrite (action_malformed _ _ errors); [done | | done..].
    apply (liveSession_stays_None w); cbn; by rewrite ?guardWorld_sessions.
  - rewrite (action_invalid_credentials _ _ data); [done | | done | done |].
    + apply (liveSession_stays_None w); cbn; by rewrite ?guardWorld_sessions.
    + cbn. by rewrite guardWorld_users.
Qed.

End Login.

(** ** The page *)

Lemma unescape_escaped c rest :
  unescape ((if unreserved c then String c "" else percentEncode c) +:+ rest)
  = String c (unescape rest).
Proof. by destruct c as [[] [] [] [] [] [] [] []]. Qed.

Lemma encodeURIComponent_cons c rest :
  encodeURIComponent (String c rest)
  = (if unreserved c then String c "" else percentEncode c)
    +:+ encodeURIComponent rest.
Proof. cbn. by destruct (unreserved c). Qed.

Lemma unescape_encodeURIComponent s : unescape (encodeURIComponent s) = s.
Proof.
  induction s as [|c rest IH]; [done|].
  by rewrite encodeURIComponent_cons, unescape_escaped, IH.
Qed.

Lemma escaped_tokenChars c :
  forallb tokenChar
    (String.list_ascii_of_string (if unreserved c then String c "" else percentEncode c))
  = true.
Proof. by destruct c as [[] [] [] [] [] [] [] []]. Qed.

Lemma list_ascii_of_string_app s1 s2 :
  String.list_ascii_of_string (s1 +:+ s2)
  = (String.list_ascii_of_string s1 ++ String.list_ascii_of_string s2)%list.
Proof.
  induction s1 as [|c s1 IH]; [done|].
  change (String c s1 +:+ s2) with (String c (s1 +:+ s2)).
  cbn [String.list_ascii_of_string]. by rewrite IH.
Qed.

Lemma encodeURIComponent_tokenChars s :
  forallb tokenChar (String.list_ascii_of_string (encodeURIComponent s)) = true.
Proof.
  induction s as [|c rest IH]; [done|].
  by rewrite encodeURIComponent_cons, list_ascii_of_string_app, forallb_app,
    escaped_tokenChars, IH.
Qed.

Lemma encodeURIComponent_nonempty s : s ≠ "" → encodeURIComponent s ≠ "".
Proof.
  intros Hs Hempty. apply Hs.
  by rewrite <- (unescape_encodeURIComponent s), Hempty.
Qed.

(** X12. The "Create an account" link is [/signup] when the page has no
    [redirectTo] or an empty one; otherwise it is [/signup?] followed by one
    non-empty token made of unreserved characters and [%] only, so that
    whatever [redirectTo] holds, none of [& = # ? / +] and no space occurs
    after the question mark. *)
Theorem signupLink_is_one_token redirectTo :
  match redirectTo with
  | None | Some "" => signupLink redirectTo = "/signup"
  | Some _ =>
      ∃ token,
        signupLink redirectTo = "/signup?" +:+ token
        ∧ token ≠ ""
        ∧ (∀ c, c ∈ String.list_ascii_of_string token →
                unreserved c = true ∨ c = "%"%char)
        ∧ ∀ c, c ∈ ["&"; "="; "#"; "?"; "/"; "+"; " "]%char →
               c ∉ String.list_ascii_of_string token
  end.
Proof.
  destruct redirectTo as [[|c rest]|]; [done | | done].
  set (to := String c rest).
  assert (∀ a, a ∈ String.list_ascii_of_string (encodeURIComponent to) →
               tokenChar a = true) as Htoken.
  { intros a Ha. apply list_elem_of_In in Ha.
    pose proof (encodeURIComponent_tokenChars to) as Hall.
    rewrite forallb_forall in Hall. by apply Hall. }
  exists (encodeURIComponent to). split_and!.
  - unfold signupLink. by rewrite decide_False.
  - by apply encodeURIComponent_nonempty.
  - intros a Ha. apply Htoken in Ha. unfold tokenChar in Ha.
    apply orb_true_iff in Ha as [Ha|Ha]; [by left|].
    right. by apply Ascii.eqb_eq in Ha.
  - intros a Hreserved Ha. apply Htoken in Ha.
    repeat (apply elem_of_cons in Hreserved as [->|Hreserved]; [done|]).
    by apply elem_of_nil in Hreserved.
Qed.

(** X13. The link loses nothing of [redirectTo]: two non-empty values that
    give the same link are the same value. *)
Theorem signupLink_injective to1 to2 :
  to1 ≠ "" → to2 ≠ "" →
  signupLink (Some to1) = signupLink (Some to2) → to1 = to2.
Proof.
  intros H1 H2. unfold signupLink. rewrite !decide_False by done.
  intros [= Hlink].
  change (encodeURIComponent to1 = encodeURIComponent to2) in Hlink.
  by rewrite <- (unescape_encodeURIComponent to1),
    <- (unescape_encodeURIComponent to2), Hlink.
Qed.

(** ** The claims on sample inputs *)

Lemma C1_witness :
  ∃ s sc w',
    action (H := sampleImports)
      (sampleRequest "submit" "correct-horse" true) (sampleWorld [700; 800; 9]%N)
      = (Returned (redirect "/notes" (Some sc)), w')
    ∧ decode (H := sampleImports) (Some (sc_cookie sc)) = Some (session_id s)
    ∧ sessions w' !! session_id s = Some s
    ∧ session_userId s = "u1".
Proof.
  apply (C1_cookie_names_session_of_user (H := sampleImports)
           (sampleRequest "submit" "correct-horse" true) (sampleWorld [700; 800; 9]%N)
           (sampleData "correct-horse" true) alice);
    vm_compute; reflexivity.
Defined.

Lemma C2_witness :
  ∃ w',
    action (H := sampleImports)
      (sampleRequest "submit" "wrong" false) (sampleWorld [])
      = (Returned
           (json
              (JsonAction "error"
                 {| sub_intent := "submit";
                    sub_payload :=
                      delete "password" (form_entries (sampleForm "submit" "wrong" false));
                    sub_error := {[ "" := ["Invalid username or password"] ]};
                    sub_value := None |}) 400), w').
Proof.
  apply (C2_invalid_credentials_one_message (H := sampleImports)
           (sampleRequest "submit" "wrong" false) (sampleWorld [])
           (sampleData "wrong" false));
    vm_compute; reflexivity.
Defined.

Lemma C3_witness :
  ∃ sc w',
    action (H := sampleImports)
      (sampleRequest "submit" "correct-horse" true) (sampleWorld [700; 800; 9]%N)
      = (Returned (redirect "/notes" (Some sc)), w')
    ∧ ∃ t, 1000 ≤ t ≤ now w' ∧ sc_expires sc = Some (t + 2592000000).
Proof.
  apply (C3_remember_sets_cookie_expires (H := sampleImports)
           (sampleRequest "submit" "correct-horse" true) (sampleWorld [700; 800; 9]%N)
           (sampleData "correct-horse" true) alice);
    vm_compute; reflexivity.
Defined.

(** C4. The claim: on every successful login the [Expires] of the cookie and
    the [expiresAt] of the created Session are one value, computed once and
    not again where the cookie is committed.  [action] does compute the
    expiration again at the commit, from a reading of the clock of its own
    (the comment at that place says the value is available on the session
    and need not be computed there).  On this login with [remember] set the
    clock reads 1000 when [login] computes the expiration of the session
    and 2500 when [action] commits the cookie, and the two expirations
    differ by those 1500 milliseconds. *)
Theorem C4_cookie_expiry_recomputed_at_commit :
  ∃ s sc w',
    action (H := sampleImports)
      (sampleRequest "submit" "correct-horse" true) (sampleWorld [700; 800; 9]%N)
      = (Returned (redirect "/notes" (Some sc)), w')
    ∧ decode (H := sampleImports) (Some (sc_cookie sc)) = Some (session_id s)
    ∧ sessions w' !! session_id s = Some s
    ∧ session_expiresAt s = Some 2592001000
    ∧ sc_expires sc = Some 2592002500
    ∧ sc_expires sc ≠ session_expiresAt s.
Proof.
  eexists {| session_id := "0"; session_userId := "u1";
             session_createdAt := 1700;
             session_expiresAt := Some 2592001000 |}, _, _.
  split; [vm_compute; reflexivity|].
  repeat split; try (vm_compute; reflexivity).
  cbn. congruence.
Qed.

Lemma C5_witness :
  ∃ sub w',
    action (H := sampleImports)
      (sampleRequest "submit" "wrong" false) (sampleWorld [])
      = (Returned (json (JsonAction "error" sub) 400), w')
    ∧ sub_error sub = {[ "" := ["Invalid username or password"] ]}
    ∧ sessions w' = ∅
    ∧ trace w' = [ReadBody; Verify "alice"].
Proof.
  apply (C5_failed_login_creates_no_session (H := sampleImports)
           (sampleRequest "submit" "wrong" false) (sampleWorld [])
           (sampleData "wrong" false));
    vm_compute; reflexivity.
Defined.

Example loader_redirects_live_session :
  (loader (H := sampleImports) (sampleReturning "submit" "") sampleLiveWorld).1
  = Thrown (redirect "/" None).
Proof. vm_compute. reflexivity. Qed.

Example loader_serves_expired_session :
  (loader (H := sampleImports) (sampleReturning "submit" "") sampleExpiredWorld).1
  = Returned (json JsonEmpty 200).
Proof. vm_compute. reflexivity. Qed.

Example loader_serves_deleted_session :
  (loader (H := sampleImports) (sampleReturning "submit" "") (sampleWorld [])).1
  = Returned (json JsonEmpty 200).
Proof. vm_compute. reflexivity. Qed.

Example loader_serves_tampered_cookie :
  (loader (H := sampleImports) (sampleTampered "submit" "") sampleLiveWorld).1
  = Returned (json JsonEmpty 200).
Proof. vm_compute. reflexivity. Qed.

Example loader_serves_garbled_cookie :
  (loader (H := sampleImports)
     {| req_cookie := Some (Garbled "userId=s1");
        req_body := sampleForm "submit" "" false |} sampleLiveWorld).1
  = Returned (json JsonEmpty 200).
Proof. vm_compute. reflexivity. Qed.

Example loader_serves_without_cookie :
  (loader (H := sampleImports) (sampleRequest "submit" "" false) sampleLiveWorld).1
  = Returned (json JsonEmpty 200).
Proof. vm_compute. reflexivity. Qed.

Lemma C8_witness :
  ∃ r s expires w',
    action (H := sampleImports)
      (sampleRequest "submit" "correct-horse" false) (sampleWorld [700; 800; 9]%N)
      = (Returned r, w')
    ∧ 300 ≤ res_status r < 400
    ∧ res_location r = Some "/notes"
    ∧ res_body r = NoBody
    ∧ res_setCookie r =
        Some (commitSession (H := sampleImports)
                (<["userId" := session_id s]> ∅) expires)
    ∧ (∅ : gmap string Session) !! session_id s = None
    ∧ sessions w' !! session_id s = Some s.
Proof.
  apply (C8_success_is_redirect_with_cookie (H := sampleImports)
           (sampleRequest "submit" "correct-horse" false) (sampleWorld [700; 800; 9]%N)
           (sampleData "correct-horse" false) alice);
    vm_compute; reflexivity.
Defined.

Lemma C9_witness :
  ∃ w',
    action (H := sampleImports)
      (sampleReturning "submit" "correct-horse") sampleLiveWorld
      = (Thrown (redirect "/" None), w')
    ∧ trace w' = []
    ∧ sessions w' = {[ "s1" := sampleSession ]}
    ∧ users w' = [alice].
Proof.
  apply (C9_guard_precedes_body_and_login (H := sampleImports)
           (sampleReturning "submit" "correct-horse") sampleLiveWorld
           sampleSession).
  vm_compute; reflexivity.
Defined.



(** ** The further properties on sample inputs *)

Lemma malformed_submission_witness :
  ∃ sub w',
    action (H := sampleImports) (sampleRequest "submit" "" false) (sampleWorld [])
      = (Returned (json (JsonAction "error" sub) 400), w')
    ∧ sub_error sub = {[ "password" := ["Required"] ]}
    ∧ ({[ "password" := ["Required"] ]} : gmap string (list string)) !! "" = None
    ∧ ({[ "password" := ["Required"] ]} : gmap string (list string)) ≠ ∅
    ∧ sub_value sub = None
    ∧ sub_payload sub
      = delete "password" (form_entries (sampleForm "submit" "" false))
    ∧ trace w' = [ReadBody]
    ∧ sessions w' = ∅
    ∧ users w' = [alice].
Proof.
  apply (malformed_submission_is_not_verified (H := sampleImports)
           (sampleRequest "submit" "" false) (sampleWorld [])
           {[ "password" := ["Required"] ]});
    vm_compute; reflexivity.
Defined.

Lemma keep_existing_sessions_witness :
  sessions
    (action (H := sampleImports)
       (sampleRequest "submit" "correct-horse" false) sampleLiveWorld).2
    !! "s1" = Some sampleSession
  ∧ sessions
      (loader (H := sampleImports)
         (sampleRequest "submit" "correct-horse" false) sampleLiveWorld).2
      !! "s1" = Some sampleSession.
Proof.
  apply (handlers_keep_existing_sessions (H := sampleImports)
           (sampleRequest "submit" "correct-horse" false) sampleLiveWorld
           "s1" sampleSession).
  vm_compute; reflexivity.
Defined.

Lemma committed_cookie_witness :
  ∃ sc w',
    action (H := sampleImports)
      (sampleThemed "submit" "correct-horse") (sampleWorld [])
      = (Returned (redirect "/notes" (Some sc)), w')
    ∧ ∀ key, key ≠ "userId" →
        getSession (H := sampleImports) (Some (sc_cookie sc)) !! key
        = getSession (H := sampleImports)
            (req_cookie (sampleThemed "submit" "correct-horse")) !! key.
Proof.
  apply (committed_cookie_keeps_other_entries (H := sampleImports)
           (sampleThemed "submit" "correct-horse") (sampleWorld [])
           (sampleData "correct-horse" false) alice);
    vm_compute; reflexivity.
Defined.

Lemma login_takes_effect_witness :
  ∃ sc,
    res_setCookie
      (sent (action (H := sampleImports)
               (sampleRequest "submit" "correct-horse" true)
               (sampleWorld [700; 800; 9]%N)).1) = Some sc
    ∧ ∀ body,
        (loader (H := sampleImports)
           {| req_cookie := Some (sc_cookie sc); req_body := body |}
           (action (H := sampleImports)
              (sampleRequest "submit" "correct-horse" true)
              (sampleWorld [700; 800; 9]%N)).2).1
        = Thrown (redirect "/" None)
        ∧ (action (H := sampleImports)
             {| req_cookie := Some (sc_cookie sc); req_body := body |}
             (action (H := sampleImports)
                (sampleRequest "submit" "correct-horse" true)
                (sampleWorld [700; 800; 9]%N)).2).1
          = Thrown (redirect "/" None).
Proof.
  apply (login_takes_effect (H := sampleImports)
           (sampleRequest "submit" "correct-horse" true)
           (sampleWorld [700; 800; 9]%N)
           (sampleData "correct-horse" true) alice);
    try (vm_compute; reflexivity).
  intros _. vm_compute. discriminate.
Defined.


Lemma signupLink_injective_witness : "/notes?tab=1" = "/notes?tab=1".
Proof.
  apply (signupLink_injective "/notes?tab=1" "/notes?tab=1");
    vm_compute; (discriminate || reflexivity).
Defined.

Lemma safe_targets_witness :
  ("/notes" = "/" ∧
   turnedAway
     (action (H := sampleImports)
        (sampleRequest "submit" "correct-horse" true)
        (sampleWorld [700; 800; 9]%N)).1 = true)
  ∨ ∃ to,
      zStringOptional
        (form_entries (sampleForm "submit" "correct-horse" true) !! "redirectTo")
      = ZOk to
      ∧ "/notes" = safeRedirect (Imports := sampleImports) to
      ∧ is_Some
          (res_setCookie
             (sent (action (H := sampleImports)
                      (sampleRequest "submit" "correct-horse" true)
                      (sampleWorld [700; 800; 9]%N)).1)).
Proof.
  apply (action_redirects_to_safe_targets_only (H := sampleImports)
           (sampleRequest "submit" "correct-horse" true)
           (sampleWorld [700; 800; 9]%N) "/notes").
  vm_compute; reflexivity.
Defined.

Lemma repeated_attempt_witness :
  (action (H := sampleImports) (sampleRequest "submit" "wrong" false)
     (action (H := sampleImports)
        (sampleRequest "submit" "wrong" false) (sampleWorld [5]%N)).2).1
  = (action (H := sampleImports)
       (sampleRequest "submit" "wrong" false) (sampleWorld [5]%N)).1.
Proof.
  apply (rejected_attempt_can_be_repeated (H := sampleImports)
           (sampleRequest "submit" "wrong" false) (sampleWorld [5]%N));
    vm_compute; reflexivity.
Defined.
